(** * UKBAnalyzer: the evidence attribution and scoring engine

    A shallow embedding of the three analysis classes of the repository,

    - [UKBShowcaseScraper._process_categories]   (showcase_scraper.py),
    - [IntegratedAnalyzer]                        (integrated_analyzer.py),
    - [DiseaseContributionsAnalyzer]              (disease_contributions_analyzer.py),

    followed by the properties of the specification that concern them.

    Conventions of the embedding.

    - Python [str] is [string]; the text is taken to be ASCII, so that
      [str.lower], [\d], [\w], [\b] and [re.IGNORECASE] are the ASCII ones.
    - A Python [dict] whose iteration order the code observes is an
      association list in insertion order with distinct keys; a [dict] or
      [defaultdict] that is only looked up and updated is a [gmap]; a Python
      [set] is a [gset].
    - An exception is a value of [exn]; code that can raise returns a
      [result].
    - A binary64 float that the program reads is [pyfloat]: an exact
      rational or one of the three special values (rounding is not
      modelled, overflow to infinity is).  A float that the program
      computes with [log1p] is a [score]: a real number or a special value.
    - spaCy's sentence segmenter is a parameter [nlp : string -> list string]
      of the definitions that call it. *)

From Stdlib Require Import Reals Psatz QArith Qround Qabs.
From Stdlib Require Import Ascii String Permutation.
From stdpp Require Import gmap strings list fin_maps.

Local Open Scope string_scope.

(* ================================================================== *)
(** * Python values, strings and exceptions *)
(* ================================================================== *)

Module Py.

(** ** Exceptions and fallible computations *)

Inductive exn : Set :=
| TypeError
| ValueError
| OverflowError
| AttributeError.

Inductive result (A : Type) : Type :=
| Ok (a : A)
| Raise (e : exn).
Arguments Ok {A} a.
Arguments Raise {A} e.

Definition bind {A B : Type} (m : result A) (k : A -> result B) : result B :=
  match m with
  | Ok a => k a
  | Raise e => Raise e
  end.

(** [try: m  except (es): h]: the handler runs when the raised exception
    is one of the listed classes. *)
Definition try_except {A : Type} (m : result A) (catches : exn -> bool)
    (h : result A) : result A :=
  match m with
  | Ok a => Ok a
  | Raise e => if catches e then h else Raise e
  end.

(** ** Characters and strings *)

Definition is_digit (c : ascii) : bool :=
  let n := N_of_ascii c in ((48 <=? n) && (n <=? 57))%N.

Definition is_upper (c : ascii) : bool :=
  let n := N_of_ascii c in ((65 <=? n) && (n <=? 90))%N.

Definition is_lower (c : ascii) : bool :=
  let n := N_of_ascii c in ((97 <=? n) && (n <=? 122))%N.

(** [\w] *)
Definition is_word (c : ascii) : bool :=
  is_digit c || is_upper c || is_lower c || Ascii.eqb c "_".

(** The characters [str.strip()] removes: tab, LF, VT, FF, CR, FS, GS,
    RS, US and space. *)
Definition is_space (c : ascii) : bool :=
  let n := N_of_ascii c in
  (((9 <=? n) && (n <=? 13)) || ((28 <=? n) && (n <=? 32)))%N.

Definition lower_char (c : ascii) : ascii :=
  if is_upper c then ascii_of_N (N_of_ascii c + 32) else c.

(** [s.lower()] *)
Fixpoint lower (s : string) : string :=
  match s with
  | EmptyString => EmptyString
  | String c t => String (lower_char c) (lower t)
  end.

(** [needle in hay] *)
Fixpoint contains (needle hay : string) : bool :=
  String.prefix needle hay ||
  match hay with
  | EmptyString => false
  | String _ t => contains needle t
  end.

Fixpoint lstrip (s : string) : string :=
  match s with
  | EmptyString => EmptyString
  | String c t => if is_space c then lstrip t else s
  end.

Fixpoint rstrip (s : string) : string :=
  match s with
  | EmptyString => EmptyString
  | String c t =>
      match rstrip t with
      | EmptyString => if is_space c then EmptyString else String c EmptyString
      | t' => String c t'
      end
  end.

(** [s.strip()] *)
Definition strip (s : string) : string := rstrip (lstrip s).

(** [any(p(x) for x in l)] *)
Definition any {A : Type} (p : A -> bool) (l : list A) : bool := existsb p l.

(** ** Values *)

(** A binary64 value as the program reads it. *)
Inductive pyfloat : Type :=
| FFin (q : Q)
| FPosInf
| FNegInf
| FNaN.

Inductive pyval : Type :=
| PyNone
| PyInt (z : Z)
| PyFloat (f : pyfloat)
| PyStr (s : string).

(** The least magnitude that binary64 rounds to infinity:
    [2^1024 - 2^970]. *)
Definition float_overflow_bound : Z := 2 ^ 1024 - 2 ^ 970.

Definition overflows (q : Q) : bool :=
  Qle_bool (inject_Z float_overflow_bound) (Qabs q).

(** ** [float(str)] *)

Definition digit_val (c : ascii) : Z := Z.of_N (N_of_ascii c) - 48.

(** A digit part, [digit (["_"] digit)*], read after its first digit;
    returns the value, the number of digits and what is left. *)
Fixpoint digitpart (acc : Z) (n : nat) (s : string) : Z * nat * string :=
  match s with
  | EmptyString => (acc, n, s)
  | String c t =>
      if is_digit c then digitpart (10 * acc + digit_val c) (S n) t
      else if Ascii.eqb c "_" then
        match t with
        | String d t' =>
            if is_digit d then digitpart (10 * acc + digit_val d) (S n) t'
            else (acc, n, s)
        | EmptyString => (acc, n, s)
        end
      else (acc, n, s)
  end.

(** A digit part that may be absent: [None] when [s] does not start with
    a digit. *)
Definition digits (s : string) : option (Z * nat * string) :=
  match s with
  | String c _ => if is_digit c then Some (digitpart 0 0 s) else None
  | EmptyString => None
  end.

Definition sign (s : string) : bool * string :=
  match s with
  | String "-" t => (true, t)
  | String "+" t => (false, t)
  | _ => (false, s)
  end.

(** Optional exponent [("e"|"E") ["+"|"-"] digitpart]; [None] is a
    syntax error. *)
Definition exponent (s : string) : option (Z * string) :=
  match s with
  | String c t =>
      if Ascii.eqb (lower_char c) "e" then
        let '(neg, t1) := sign t in
        match digits t1 with
        | Some (e, _, rest) => Some (if neg then (- e)%Z else e, rest)
        | None => None
        end
      else Some (0%Z, s)
  | EmptyString => Some (0%Z, s)
  end.

Definition pow10 (e : Z) : Q :=
  if (0 <=? e)%Z then inject_Z (10 ^ e) else / inject_Z (10 ^ (- e)).

(** The decimal [int_part . frac_part e exp], with at least one digit in
    the integer or the fraction part. *)
Definition floatnumber (s : string) : option Q :=
  let ip := digits s in
  let after_int := match ip with Some (_, _, r) => r | None => s end in
  let '(frac, after_frac) :=
    match after_int with
    | String "." t =>
        match digits t with
        | Some (f, n, r) => (Some (f, n), r)
        | None => (None, t)
        end
    | _ => (None, after_int)
    end in
  match ip, frac with
  | None, None => None
  | _, _ =>
      match exponent after_frac with
      | Some (e, EmptyString) =>
          let i := match ip with Some (v, _, _) => v | None => 0%Z end in
          let '(f, n) := match frac with Some fn => fn | None => (0%Z, 0%nat) end in
          Some ((inject_Z i + inject_Z f * pow10 (- Z.of_nat n)) * pow10 e)%Q
      | _ => None
      end
  end.

Definition round_to_float (neg : bool) (q : Q) : pyfloat :=
  if overflows q then (if neg then FNegInf else FPosInf)
  else FFin (if neg then - q else q)%Q.

(** [float(s)] for a string: surrounding whitespace is dropped, then an
    optional sign and [inf], [infinity], [nan] (in any case) or a decimal
    number. *)
Definition float_of_string (s : string) : result pyfloat :=
  let '(neg, body) := sign (strip s) in
  let l := lower body in
  if String.eqb l "inf" || String.eqb l "infinity" then
    Ok (if neg then FNegInf else FPosInf)
  else if String.eqb l "nan" then Ok FNaN
  else match floatnumber body with
       | Some q => Ok (round_to_float neg q)
       | None => Raise ValueError
       end.

(** [float(v)] *)
Definition float (v : pyval) : result pyfloat :=
  match v with
  | PyNone => Raise TypeError
  | PyInt z =>
      if overflows (inject_Z z) then Raise OverflowError
      else Ok (FFin (inject_Z z))
  | PyFloat f => Ok f
  | PyStr s => float_of_string s
  end.

(** Truncation toward zero. *)
Definition trunc (q : Q) : Z :=
  if Qle_bool 0 q then Qfloor q else Qceiling q.

(** [int(f)] for a float. *)
Definition int (f : pyfloat) : result Z :=
  match f with
  | FFin q => Ok (trunc q)
  | FPosInf | FNegInf => Raise OverflowError
  | FNaN => Raise ValueError
  end.

(** ** Computed floating-point values *)

Inductive score : Type :=
| SFin (r : R)
| SPosInf
| SNegInf
| SNaN.

(** [np.log1p(x)]: the logarithm of [1 + x]; minus infinity at [-1] and
    NaN below (numpy warns, it does not raise). *)
Definition log1p (x : pyfloat) : score :=
  match x with
  | FFin q =>
      if Qle_bool q (-1) then (if Qeq_bool q (-1) then SNegInf else SNaN)
      else SFin (ln (1 + Q2R q))
  | FPosInf => SPosInf
  | FNegInf => SNaN
  | FNaN => SNaN
  end.

(** [x / 10] *)
Definition div10 (x : score) : score :=
  match x with
  | SFin r => SFin (r / 10)
  | other => other
  end.

(** [x + y] *)
Definition add (x y : score) : score :=
  match x, y with
  | SNaN, _ | _, SNaN => SNaN
  | SFin a, SFin b => SFin (a + b)
  | SPosInf, SNegInf | SNegInf, SPosInf => SNaN
  | SPosInf, _ | _, SPosInf => SPosInf
  | SNegInf, _ | _, SNegInf => SNegInf
  end.

(** [x < y]; every comparison with NaN is false. *)
Definition lt (x y : score) : bool :=
  match x, y with
  | SNaN, _ | _, SNaN => false
  | SFin a, SFin b => if Rlt_dec a b then true else false
  | SNegInf, SNegInf => false
  | SNegInf, _ => true
  | _, SNegInf => false
  | SPosInf, _ => false
  | _, SPosInf => true
  end.

End Py.

(** [x <- m;; k]: run [m], stop at the exception it raises, otherwise
    continue with its value. *)
Notation "x <- m ;; k" := (Py.bind m (fun x => k))
  (at level 100, m at next level, right associativity).

(* ================================================================== *)
(** * Publication records *)
(* ================================================================== *)

(** A publication is the [dict] that ukb_publications_parser.py builds.  A
    key can be missing ([None]), hold [None] ([Some None]) or hold a
    value. *)
Module Pub.

Definition entry (A : Type) : Type := option (option A).

Record publication : Type := {
  publication_id : entry string;
  title : entry string;
  abstract : entry string;
  year : entry (Z + string);
  journal : entry string;
  doi : entry string;
  pubmed_id : entry string;
  total_citations : option Py.pyval
}.

(** [pub.get(key)] *)
Definition get {A : Type} (e : entry A) : option A :=
  match e with
  | Some v => v
  | None => None
  end.

(** [pub.get(key, default)] *)
Definition get_or {A : Type} (e : entry A) (default : option A) : option A :=
  match e with
  | Some v => v
  | None => default
  end.

(** [f"{v}"] for [None] or a string. *)
Definition fmt (v : option string) : string :=
  match v with
  | Some s => s
  | None => "None"
  end.

(** [f"{pub.get('title', '')} {pub.get('abstract', '')}"] *)
Definition text (pub : publication) : string :=
  fmt (get_or (title pub) (Some "")) ++ " " ++
  fmt (get_or (abstract pub) (Some "")).

End Pub.

(* ================================================================== *)
(** * disease_contributions_analyzer.py *)
(* ================================================================== *)

Module Disease.
Import Py.

(** ** Regular expressions of the finding patterns

    The patterns use literals, concatenation, alternation and [?] only;
    such an expression denotes a finite set of words, and [re.search]
    succeeds when one of them occurs in the subject. *)
Inductive regex : Type :=
| Lit (s : string)
| Cat (r1 r2 : regex)
| Alt (r1 r2 : regex)
| Opt (r : regex).

Fixpoint words (r : regex) : list string :=
  match r with
  | Lit s => [s]
  | Cat r1 r2 =>
      flat_map (fun w1 => map (fun w2 => w1 ++ w2) (words r2)) (words r1)
  | Alt r1 r2 => words r1 ++ words r2
  | Opt r => "" :: words r
  end.

(** [re.search(pattern, s, re.IGNORECASE)] as a truth value. *)
Definition re_search_ignorecase (pattern : regex) (s : string) : bool :=
  any (fun w => contains (lower w) (lower s)) (words pattern).

Definition disease_categories : list (string * list string) :=
  [ ("cardiovascular",
      ["cardiovascular disease"; "heart disease"; "stroke";
       "hypertension"; "atherosclerosis"; "arrhythmia";
       "coronary artery disease"; "heart failure"]);
    ("cancer",
      ["cancer"; "tumour"; "carcinoma"; "neoplasm"; "lymphoma";
       "leukemia"; "melanoma"; "oncology"; "metastasis"]);
    ("neurodegenerative",
      ["alzheimer"; "parkinson"; "dementia"; "neurodegeneration";
       "cognitive decline"; "brain aging"; "neurological"]);
    ("metabolic",
      ["diabetes"; "obesity"; "metabolic syndrome";
       "thyroid disease"; "insulin resistance"]);
    ("psychiatric",
      ["depression"; "anxiety"; "mental health"; "schizophrenia";
       "bipolar disorder"; "psychiatric illness"]);
    ("respiratory",
      ["asthma"; "copd"; "lung disease"; "respiratory disease";
       "pulmonary disease"; "covid-19"; "pneumonia"]) ].

Definition finding_patterns : list regex :=
  [ Cat (Lit "we ")
      (Alt (Lit "found") (Alt (Lit "identified") (Alt (Lit "discovered")
        (Alt (Lit "observed") (Lit "showed")))));
    Cat (Lit "results ")
      (Alt (Lit "showed") (Alt (Lit "demonstrated")
        (Alt (Lit "indicated") (Lit "revealed"))));
    Cat (Lit "significant") (Cat (Opt (Lit "ly")) (Lit " associated"));
    Cat (Lit "strong") (Cat (Opt (Lit "ly")) (Lit " correlated"));
    Lit "key finding";
    Cat (Lit "novel ")
      (Alt (Lit "finding") (Alt (Lit "discovery") (Lit "association"))) ].

Definition impact_phrases : list string :=
  [ "first"; "novel"; "breakthrough"; "significant"; "important";
    "major advance"; "key finding"; "innovative" ].

Record contribution : Type := {
  c_title : option string;
  c_year : option (Z + string);
  c_journal : option string;
  c_citations : Z;
  c_findings : list string;
  c_doi : option string;
  c_pubmed_id : option string;
  c_impact_score : score
}.

(** [_text_contains_keywords] *)
Definition _text_contains_keywords (text : string) (keywords : list string)
    : bool :=
  any (fun keyword => contains (lower keyword) text) keywords.

(** [_extract_key_findings]; [nlp text] is the list of [sent.text] for
    [sent] in [self.nlp(text).sents]. *)
Definition _extract_key_findings (nlp : string -> list string)
    (text : string) : list string :=
  map strip
    (filter
       (fun sent =>
          Is_true (any (fun pattern => re_search_ignorecase pattern sent)
                       finding_patterns))
       (nlp text)).

(** The first statement of [_calculate_impact_score]'s [try] block. *)
Definition citation_score (citations : pyval) : result score :=
  match citations with
  | PyNone => Ok (SFin 0)
  | _ => f <- float citations;; Ok (div10 (log1p f))
  end.

(** [text.lower()] for an argument that need not be a string. *)
Definition lower_method (text : pyval) : result string :=
  match text with
  | PyStr s => Ok (lower s)
  | _ => Raise AttributeError
  end.

(** [sum(1 for phrase in impact_phrases if phrase in lowered)] *)
Definition impact_count (lowered : string) : nat :=
  length (filter (fun phrase => Is_true (contains phrase lowered))
                 impact_phrases).

(** The body of the [try] block of [_calculate_impact_score]. *)
Definition impact_score_body (text citations : pyval) : result score :=
  cs <- citation_score citations;;
  lowered <- lower_method text;;
  let impact_score :=
    SFin (INR (impact_count lowered) / INR (length impact_phrases)) in
  Ok (add cs impact_score).

(** [_calculate_impact_score]: the bare [except] turns every exception
    into [0.0]. *)
Definition _calculate_impact_score (text citations : pyval) : score :=
  match impact_score_body text citations with
  | Ok s => s
  | Raise _ => SFin 0
  end.

(** Lines 56-59: [int(float(pub.get('total_citations', 0)))] under
    [except (TypeError, ValueError)]. *)
Definition parse_citations (pub : Pub.publication) : result Z :=
  f <- float (default (PyInt 0) (Pub.total_citations pub));; int f.

Definition type_or_value_error (e : exn) : bool :=
  match e with
  | TypeError | ValueError => true
  | _ => false
  end.

Definition coerce_citations (pub : Pub.publication) : result Z :=
  try_except (parse_citations pub) type_or_value_error (Ok 0%Z).

(** The [dict] literal of lines 66-75. *)
Definition make_contribution (pub : Pub.publication) (text : string)
    (citations : Z) (findings : list string) : contribution :=
  {| c_title := Pub.get_or (Pub.title pub) (Some "");
     c_year := Pub.get_or (Pub.year pub) (Some (inr "Unknown"));
     c_journal := Pub.get_or (Pub.journal pub) (Some "");
     c_citations := citations;
     c_findings := findings;
     c_doi := Pub.get_or (Pub.doi pub) (Some "");
     c_pubmed_id := Pub.get_or (Pub.pubmed_id pub) (Some "");
     c_impact_score := _calculate_impact_score (PyStr text) (PyInt citations) |}.

(** [contributions[category].append(c)] on a [defaultdict(list)]. *)
Definition append_to (category : string) (c : contribution)
    (contributions : gmap string (list contribution))
    : gmap string (list contribution) :=
  <[category := (default [] (contributions !! category) ++ [c])%list]>
    contributions.

(** The loop over [self.disease_categories.items()], lines 62-76. *)
Fixpoint check_categories (nlp : string -> list string)
    (pub : Pub.publication) (text : string) (citations : Z)
    (categories : list (string * list string))
    (contributions : gmap string (list contribution))
    : gmap string (list contribution) :=
  match categories with
  | [] => contributions
  | (category, keywords) :: rest =>
      let contributions' :=
        if _text_contains_keywords (lower text) keywords then
          match _extract_key_findings nlp text with
          | [] => contributions
          | findings =>
              append_to category
                (make_contribution pub text citations findings)
                contributions
          end
        else contributions in
      check_categories nlp pub text citations rest contributions'
  end.

(** The body of the loop over [self.publications], lines 53-76. *)
Definition process_publication (nlp : string -> list string)
    (contributions : gmap string (list contribution))
    (pub : Pub.publication) : result (gmap string (list contribution)) :=
  let text := Pub.text pub in
  citations <- coerce_citations pub;;
  Ok (check_categories nlp pub text citations disease_categories
        contributions).

Fixpoint process_publications (nlp : string -> list string)
    (publications : list Pub.publication)
    (contributions : gmap string (list contribution))
    : result (gmap string (list contribution)) :=
  match publications with
  | [] => Ok contributions
  | pub :: rest =>
      contributions' <- process_publication nlp contributions pub;;
      process_publications nlp rest contributions'
  end.

(** [l.sort(key=lambda x: x['impact_score'], reverse=True)]: a stable
    sort into descending order. *)
Fixpoint insert_desc (c : contribution) (l : list contribution)
    : list contribution :=
  match l with
  | [] => [c]
  | d :: l' =>
      if lt (c_impact_score c) (c_impact_score d)
      then d :: insert_desc c l'
      else c :: l
  end.

Definition sort_by_impact (l : list contribution) : list contribution :=
  foldr insert_desc [] l.

(** [analyze_disease_contributions] *)
Definition analyze_disease_contributions (nlp : string -> list string)
    (publications : list Pub.publication)
    : result (gmap string (list contribution)) :=
  contributions <- process_publications nlp publications ∅;;
  Ok (sort_by_impact <$> contributions).

End Disease.

(* ================================================================== *)
(** * showcase_scraper.py *)
(* ================================================================== *)

Module Showcase.
Import Py.

(** A row of a schema table.  A cell is the string the code reads from
    it ([str(...)] of an id, a display name that is a [str]); [None] means
    that the table has no such column. *)
Record category_row : Type := {
  r_cat_id : option string;
  r_title : option string;
  r_cat_name : option string;
  r_parent_id : option string
}.

Record field_row : Type := {
  f_field_id : option string;
  f_category : option string;
  f_cat_id : option string;
  f_title : option string;
  f_field_name : option string;
  f_type : option string;
  f_description : option string
}.

Record field_info : Type := {
  field_id : string;
  field_name : string;
  field_type : string;
  description : string
}.

Record subcategory : Type := {
  sub_name : string;
  fields : list field_info
}.

Record category : Type := {
  name : string;
  subcategories : list (string * subcategory)
}.

(** The nested [defaultdict]: keys in insertion order. *)
Definition taxonomy : Type := list (string * category).

Definition new_subcategory : subcategory :=
  {| sub_name := ""; fields := [] |}.

Definition new_category : category :=
  {| name := ""; subcategories := [] |}.

(** [d[k] = f(d[k])] on a [defaultdict] with default [dflt]: an existing
    key keeps its place, a new key goes last. *)
Fixpoint update {V : Type} (dflt : V) (f : V -> V) (k : string)
    (d : list (string * V)) : list (string * V) :=
  match d with
  | [] => [(k, f dflt)]
  | (k', v) :: d' =>
      if String.eqb k k' then (k', f v) :: d'
      else (k', v) :: update dflt f k d'
  end.

Definition set_name (n : string) (c : category) : category :=
  {| name := n; subcategories := subcategories c |}.

Definition set_sub_name (n : string) (s : subcategory) : subcategory :=
  {| sub_name := n; fields := fields s |}.

Definition append_field (info : field_info) (s : subcategory) : subcategory :=
  {| sub_name := sub_name s; fields := (fields s ++ [info])%list |}.

Definition update_subcategory (f : subcategory -> subcategory)
    (subcat_id : string) (c : category) : category :=
  {| name := name c;
     subcategories := update new_subcategory f subcat_id (subcategories c) |}.

(** [row.get(a, row.get(b, ''))] *)
Definition either_column (a b : option string) : string :=
  match a with
  | Some v => v
  | None => default "" b
  end.

(** One iteration of the loop over [categories_df], lines 89-102. *)
Definition add_category_row (categories : taxonomy) (row : category_row)
    : taxonomy :=
  let cat_id := default "" (r_cat_id row) in
  if String.eqb cat_id "" then categories
  else
    let cat_name := either_column (r_title row) (r_cat_name row) in
    let parent_id := default "" (r_parent_id row) in
    if negb (String.eqb parent_id "") && negb (String.eqb parent_id "nan")
    then update new_category
           (update_subcategory (set_sub_name cat_name) cat_id)
           parent_id categories
    else update new_category (set_name cat_name) cat_id categories.

(** [cat_id in subcat['name'] or cat_id == subcat['name']] *)
Definition matches (cat_id : string) (s : subcategory) : bool :=
  contains cat_id (sub_name s) || String.eqb cat_id (sub_name s).

(** The inner loop of lines 123-127: append to the first matching
    subcategory; [None] when the loop ends without a [break]. *)
Fixpoint place_in_subcategories (cat_id : string) (info : field_info)
    (subs : list (string * subcategory))
    : option (list (string * subcategory)) :=
  match subs with
  | [] => None
  | (k, s) :: rest =>
      if matches cat_id s then Some ((k, append_field info s) :: rest)
      else
        match place_in_subcategories cat_id info rest with
        | Some rest' => Some ((k, s) :: rest')
        | None => None
        end
  end.

(** The outer loop of lines 122-129. *)
Fixpoint place_in_categories (cat_id : string) (info : field_info)
    (categories : taxonomy) : option taxonomy :=
  match categories with
  | [] => None
  | (k, c) :: rest =>
      match place_in_subcategories cat_id info (subcategories c) with
      | Some subs' =>
          Some ((k, {| name := name c; subcategories := subs' |}) :: rest)
      | None =>
          match place_in_categories cat_id info rest with
          | Some rest' => Some ((k, c) :: rest')
          | None => None
          end
      end
  end.

Definition make_field_info (fid : string) (row : field_row) : field_info :=
  {| field_id := fid;
     field_name := either_column (f_title row) (f_field_name row);
     field_type := default "" (f_type row);
     description := default "" (f_description row) |}.

(** [str(field.get('category', field.get('cat_id', '')))] *)
Definition category_reference (row : field_row) : string :=
  either_column (f_category row) (f_cat_id row).

(** One iteration of the loop over [fields_df], lines 106-133. *)
Definition add_field_row (categories : taxonomy) (row : field_row)
    : taxonomy :=
  let fid := default "" (f_field_id row) in
  if String.eqb fid "" then categories
  else
    let cat_id := category_reference row in
    let info := make_field_info fid row in
    match place_in_categories cat_id info categories with
    | Some categories' => categories'
    | None =>
        update new_category
          (update_subcategory (append_field info) "default")
          "uncategorized" categories
    end.

(** [_process_categories] *)
Definition _process_categories (categories_df : list category_row)
    (fields_df : list field_row) : taxonomy :=
  foldl add_field_row (foldl add_category_row [] categories_df) fields_df.

End Showcase.

(* ================================================================== *)
(** * integrated_analyzer.py *)
(* ================================================================== *)

Module Integrated.
Import Py.

Record metadata : Type := {
  m_name : string;
  m_type : string;
  m_category : string;
  m_subcategory : string
}.

(** The value that the [defaultdict] of [_analyze_field_usage] holds for
    a field. *)
Record usage : Type := {
  mentions : nat;
  papers : gset (option string);
  contexts : list string;
  years : gset (option (Z + string))
}.

Definition new_usage : usage :=
  {| mentions := 0; papers := ∅; contexts := []; years := ∅ |}.

Record coverage : Type := {
  total_fields : nat;
  used_fields : nat;
  total_mentions : nat;
  cov_papers : gset (option string)
}.

Definition new_coverage : coverage :=
  {| total_fields := 0; used_fields := 0; total_mentions := 0;
     cov_papers := ∅ |}.

(** ** [_create_field_mappings] *)

Definition map_fields (cat : Showcase.category) (sub : Showcase.subcategory)
    (mappings : gmap string metadata) : gmap string metadata :=
  foldl
    (fun m field =>
       <[Showcase.field_id field :=
           {| m_name := Showcase.field_name field;
              m_type := Showcase.field_type field;
              m_category := Showcase.name cat;
              m_subcategory := Showcase.sub_name sub |}]> m)
    mappings (Showcase.fields sub).

Definition map_subcategories (cat : Showcase.category)
    (mappings : gmap string metadata) : gmap string metadata :=
  foldl (fun m '(_, sub) => map_fields cat sub m)
    mappings (Showcase.subcategories cat).

Definition _create_field_mappings (showcase_data : Showcase.taxonomy)
    : gmap string metadata :=
  foldl (fun m '(_, cat) => map_subcategories cat m) ∅ showcase_data.

(** ** [re.findall(r'\b\d+-\d+\.\d+\b', text)] *)

(** The longest prefix of digits, and what follows it. *)
Fixpoint span_digits (s : string) : string * string :=
  match s with
  | EmptyString => (EmptyString, EmptyString)
  | String c t =>
      if is_digit c then
        let '(d, r) := span_digits t in (String c d, r)
      else (EmptyString, s)
  end.

Definition starts_with_word (s : string) : bool :=
  match s with
  | String c _ => is_word c
  | EmptyString => false
  end.

(** [\d+-\d+\.\d+\b] anchored at the start of [s].  Each [\d+] has to
    take a whole run of digits: a shorter run is followed by a digit,
    which is neither the next literal nor a word boundary. *)
Definition match_field_id (s : string) : option string :=
  match span_digits s with
  | (EmptyString, _) => None
  | (d1, String "-" r1) =>
      match span_digits r1 with
      | (EmptyString, _) => None
      | (d2, String "." r2) =>
          match span_digits r2 with
          | (EmptyString, _) => None
          | (d3, r3) =>
              if starts_with_word r3 then None
              else Some (d1 ++ "-" ++ d2 ++ "." ++ d3)
          end
      | _ => None
      end
  | _ => None
  end.

(** The scan of [findall]: [skip] characters of the last match are still
    to be passed; [after_word] tells whether the previous character is a
    word character, in which case [\b] fails before a digit. *)
Fixpoint scan (skip : nat) (after_word : bool) (s : string) : list string :=
  match s with
  | EmptyString => []
  | String c t =>
      match skip with
      | S k => scan k true t
      | O =>
          match (if after_word then None else match_field_id s) with
          | Some m => m :: scan (String.length m - 1) true t
          | None => scan 0 (is_word c) t
          end
      end
  end.

Definition findall_field_pattern (text : string) : list string :=
  scan 0 false text.

(** ** [_analyze_field_usage] *)

(** [_get_field_context]; [nlp] is [None] when the spaCy model could not
    be loaded. *)
Definition _get_field_context (nlp : option (string -> list string))
    (text field_id : string) : list string :=
  match nlp with
  | None => []
  | Some sents =>
      map strip
        (filter (fun sent => Is_true (contains field_id sent)) (sents text))
  end.

(** Lines 66-73, for a field id that is in [self.field_mappings]. *)
Definition record_mention (nlp : option (string -> list string))
    (pub : Pub.publication) (text field_id : string)
    (field_usage : gmap string usage) : gmap string usage :=
  let u := default new_usage (field_usage !! field_id) in
  <[field_id :=
      {| mentions := mentions u + 1;
         papers := papers u ∪ {[Pub.get (Pub.title pub)]};
         contexts :=
           match nlp with
           | Some _ =>
               (contexts u ++ _get_field_context nlp text field_id)%list
           | None => contexts u
           end;
         years := years u ∪ {[Pub.get (Pub.year pub)]} |}]> field_usage.

(** Lines 64-73: the loop over [found_fields]. *)
Definition record_mentions (nlp : option (string -> list string))
    (field_mappings : gmap string metadata) (pub : Pub.publication)
    (text : string) (found_fields : list string)
    (field_usage : gmap string usage) : gmap string usage :=
  foldl
    (fun fu field_id =>
       if decide (is_Some (field_mappings !! field_id))
       then record_mention nlp pub text field_id fu
       else fu)
    field_usage found_fields.

(** Lines 56-73: one publication. *)
Definition analyze_publication (nlp : option (string -> list string))
    (field_mappings : gmap string metadata)
    (field_usage : gmap string usage) (pub : Pub.publication)
    : gmap string usage :=
  let text := Pub.text pub in
  record_mentions nlp field_mappings pub text
    (findall_field_pattern text) field_usage.

Definition _analyze_field_usage (nlp : option (string -> list string))
    (field_mappings : gmap string metadata)
    (publications : list Pub.publication) : gmap string usage :=
  foldl (analyze_publication nlp field_mappings) ∅ publications.

(** ** [analyze_category_coverage] *)

(** The body of the loop over [self.field_mappings.items()]. *)
Definition cover_field (field_usage : gmap string usage)
    (field_id : string) (meta : metadata)
    (category_coverage : gmap string coverage) : gmap string coverage :=
  let category := m_category meta in
  let c := default new_coverage (category_coverage !! category) in
  let counted :=
    {| total_fields := total_fields c + 1;
       used_fields := used_fields c;
       total_mentions := total_mentions c;
       cov_papers := cov_papers c |} in
  <[category :=
      match field_usage !! field_id with
      | Some u =>
          {| total_fields := total_fields counted;
             used_fields := used_fields counted + 1;
             total_mentions := total_mentions counted + mentions u;
             cov_papers := cov_papers counted ∪ papers u |}
      | None => counted
      end]> category_coverage.

Definition analyze_category_coverage (field_mappings : gmap string metadata)
    (field_usage : gmap string usage) : gmap string coverage :=
  map_fold (cover_field field_usage) ∅ field_mappings.

(** The ['usage_percentage'] entry of [create_visualizations], line 142. *)
Definition usage_percentage (data : coverage) : Q :=
  if (0 <? total_fields data)%nat
  then (inject_Z (Z.of_nat (used_fields data))
        / inject_Z (Z.of_nat (total_fields data)) * 100)%Q
  else 0%Q.

End Integrated.

(* ================================================================== *)
(** * The words of the specification, and sample inputs *)
(* ================================================================== *)

Module Spec.

(** ** Impact score *)

(** The number of places of [s] at which [phrase] starts. *)
Fixpoint occurrences (phrase s : string) : nat :=
  (if String.prefix phrase s then 1 else 0) +
  match s with
  | EmptyString => 0
  | String _ t => occurrences phrase t
  end.

(** "count of impact-phrase occurrences in text", repeats counted. *)
Definition phrase_occurrences (text : string) : nat :=
  list_sum (map (fun phrase => occurrences phrase (Py.lower text))
                Disease.impact_phrases).

(** "log(1 + citations) / 10 + occurrences / size of the vocabulary" *)
Definition impact_score (text : string) (citations : Z) : Py.score :=
  Py.SFin (ln (1 + IZR citations) / 10
           + INR (phrase_occurrences text) / 8)%R.

(** The impact phrases that occur in the lowercased text, as a set. *)
Definition phrases_present (text : string) : gset string :=
  list_to_set
    (filter (fun phrase => Is_true (Py.contains phrase (Py.lower text)))
            Disease.impact_phrases).

(** ** Citation term *)


(** ** Contributions *)

(** "the lowercased text contains at least one of the category's
    keywords and the finding-sentence extraction is non-empty" *)
Definition discusses (nlp : string -> list string)
    (keywords : list string) (pub : Pub.publication) : Prop :=
  Disease._text_contains_keywords (Py.lower (Pub.text pub)) keywords = true
  /\ Disease._extract_key_findings nlp (Pub.text pub) <> [].

#[global] Instance discusses_dec (nlp : string -> list string)
    (keywords : list string) (pub : Pub.publication)
    : Decision (discusses nlp keywords pub).
Proof. unfold discusses. apply _. Defined.




(** ** Usage records *)

(** [field_usage[field_id]] read without creating the entry. *)
Definition usage_of (field_usage : gmap string Integrated.usage)
    (field_id : string) : Integrated.usage :=
  default Integrated.new_usage (field_usage !! field_id).

(** Every usage record has at least as many mentions as papers. *)
Definition counted (field_usage : gmap string Integrated.usage) : Prop :=
  forall f u, field_usage !! f = Some u ->
    size (Integrated.papers u) <= Integrated.mentions u.

(** Every category of the coverage statistics has a field, and no more
    used fields than fields. *)
Definition bounded (category_coverage : gmap string Integrated.coverage)
    : Prop :=
  forall cat c, category_coverage !! cat = Some c ->
    Integrated.used_fields c <= Integrated.total_fields c
    /\ 0 < Integrated.total_fields c.

(** The publication's text mentions the field id. *)
Definition mentions_field (field_id : string) (pub : Pub.publication)
    : Prop :=
  field_id ∈ Integrated.findall_field_pattern (Pub.text pub).

#[global] Instance mentions_field_dec (field_id : string)
    (pub : Pub.publication) : Decision (mentions_field field_id pub).
Proof. unfold mentions_field. apply _. Defined.

(** "the set of publication ids" of the publications mentioning a
    field. *)
Definition paper_ids (field_id : string)
    (publications : list Pub.publication) : gset (option string) :=
  list_to_set
    ((fun pub => Pub.get (Pub.publication_id pub)) <$>
     filter (mentions_field field_id) publications).

(** The titles of the publications mentioning a field. *)
Definition paper_titles (field_id : string)
    (publications : list Pub.publication) : gset (option string) :=
  list_to_set
    ((fun pub => Pub.get (Pub.title pub)) <$>
     filter (mentions_field field_id) publications).

(** The sentences one publication adds to a field's contexts: those
    containing the field id, once per mention. *)
Definition contexts_of_publication (nlp : option (string -> list string))
    (field_id : string) (pub : Pub.publication) : list string :=
  let text := Pub.text pub in
  flat_map (fun _ => Integrated._get_field_context nlp text field_id)
    (filter (fun found => found = field_id)
            (Integrated.findall_field_pattern text)).

(** ** Taxonomy *)




(** [d[k]] on a plain dict. *)
Fixpoint lookup_key {V : Type} (k : string) (d : list (string * V))
    : option V :=
  match d with
  | [] => None
  | (k', v) :: d' => if String.eqb k k' then Some v else lookup_key k d'
  end.







(** A field row that the loop does not skip. *)
Definition has_field_id (row : Showcase.field_row) : Prop :=
  default "" (Showcase.f_field_id row) <> "".

#[global] Instance has_field_id_dec (row : Showcase.field_row)
    : Decision (has_field_id row).
Proof. unfold has_field_id. apply _. Defined.


End Spec.

Module Sample.

(** A publication with a title, an abstract and a raw citation count. *)
Definition pub (t a : string) (cites : option Py.pyval) : Pub.publication :=
  {| Pub.publication_id := None;
     Pub.title := Some (Some t);
     Pub.abstract := Some (Some a);
     Pub.year := None;
     Pub.journal := None;
     Pub.doi := None;
     Pub.pubmed_id := None;
     Pub.total_citations := cites |}.

(** The same with a publication id. *)
Definition pub_with_id (id t a : string) : Pub.publication :=
  {| Pub.publication_id := Some (Some id);
     Pub.title := Some (Some t);
     Pub.abstract := Some (Some a);
     Pub.year := None;
     Pub.journal := None;
     Pub.doi := None;
     Pub.pubmed_id := None;
     Pub.total_citations := None |}.

(** The segmenter that returns the whole text as one sentence. *)
Definition whole_text (s : string) : list string := [s].

Definition diabetes_paper (cites : option Py.pyval) : Pub.publication :=
  pub "Diabetes in UK Biobank"
      "We found a novel association with obesity." cites.

(** A batch whose second record has the citation count [inf]. *)
Definition batch_with_inf : list Pub.publication :=
  [ diabetes_paper (Some (Py.PyStr "12"));
    diabetes_paper (Some (Py.PyStr "inf"));
    diabetes_paper None ].

(** Scenario A of the specification. *)
Definition energy_field : Showcase.field_row :=
  {| Showcase.f_field_id := Some "100-0.0";
     Showcase.f_category := Some "Diet";
     Showcase.f_cat_id := None;
     Showcase.f_title := Some "energy intake";
     Showcase.f_field_name := None;
     Showcase.f_type := None;
     Showcase.f_description := None |}.

Definition lifestyle_rows : list Showcase.category_row :=
  [ {| Showcase.r_cat_id := Some "1";
       Showcase.r_title := Some "Lifestyle";
       Showcase.r_cat_name := None;
       Showcase.r_parent_id := Some "" |};
    {| Showcase.r_cat_id := Some "2";
       Showcase.r_title := Some "Diet";
       Showcase.r_cat_name := None;
       Showcase.r_parent_id := Some "1" |} ].

Definition lifestyle_taxonomy : Showcase.taxonomy :=
  Showcase._process_categories lifestyle_rows [energy_field].

Definition lifestyle_mappings : gmap string Integrated.metadata :=
  Integrated._create_field_mappings lifestyle_taxonomy.

Definition energy_paper : Pub.publication :=
  pub "Diet survey"
      "participants reported field 100-0.0 energy intake, n=5000 participants"
      None.

(** One sentence that names the field six times. *)
Definition repeated_paper : Pub.publication :=
  pub "Energy"
      "fields 100-0.0 100-0.0 100-0.0 100-0.0 100-0.0 100-0.0" None.

(** Two publications that share a title. *)
Definition twin_papers : list Pub.publication :=
  [ pub_with_id "p1" "Diet survey" "uses 100-0.0";
    pub_with_id "p2" "Diet survey" "also 100-0.0" ].

(** Scenario D of the specification. *)
Definition ratio_paper : Pub.publication :=
  pub "Note" "a ratio 12-3.4 was observed" None.

End Sample.

(* ================================================================== *)
(** * Properties *)
(* ================================================================== *)

#[local] Set Warnings "-clear-no-such-hyp".

(** ** Floating-point helpers *)

Lemma Q2R_inject_Z (z : Z) : Q2R (inject_Z z) = IZR z.
Proof. unfold Q2R, inject_Z. simpl. rewrite Rinv_1. apply Rmult_1_r. Qed.

Lemma overflows_inject_Z (z : Z) :
  Py.overflows (inject_Z z) = false <-> (Z.abs z < Py.float_overflow_bound)%Z.
Proof.
  unfold Py.overflows.
  destruct (Qle_bool _ _) eqn:E.
  - apply Qle_bool_iff in E. unfold Qle in E. simpl in E.
    split; [discriminate | lia].
  - split; [intros _ | reflexivity].
    destruct (Z_lt_le_dec (Z.abs z) Py.float_overflow_bound) as [|Hle]; [assumption|].
    assert (Qle_bool (inject_Z Py.float_overflow_bound) (Qabs (inject_Z z)) = true) as E'.
    { apply Qle_bool_iff. unfold Qle. simpl. lia. }
    congruence.
Qed.

Lemma float_small_int (z : Z) :
  (Z.abs z < Py.float_overflow_bound)%Z ->
  Py.float (Py.PyInt z) = Py.Ok (Py.FFin (inject_Z z)).
Proof.
  intros H. apply overflows_inject_Z in H. simpl. rewrite H. reflexivity.
Qed.

Lemma log1p_nonneg_int (z : Z) :
  (0 <= z)%Z ->
  Py.log1p (Py.FFin (inject_Z z)) = Py.SFin (ln (1 + IZR z)).
Proof.
  intros H. unfold Py.log1p.
  destruct (Qle_bool (inject_Z z) (-1)) eqn:E.
  - apply Qle_bool_iff in E. unfold Qle in E. simpl in E. lia.
  - rewrite Q2R_inject_Z. reflexivity.
Qed.

Lemma INR_8 : INR 8 = 8%R.
Proof. simpl. lra. Qed.

Lemma impact_phrases_NoDup : NoDup Disease.impact_phrases.
Proof. apply (bool_decide_unpack (NoDup Disease.impact_phrases)). vm_compute. exact I. Qed.

Lemma impact_count_le (lowered : string) : Disease.impact_count lowered <= 8.
Proof.
  unfold Disease.impact_count.
  etransitivity; [apply length_filter|]. reflexivity.
Qed.

Lemma impact_count_present (text : string) :
  Disease.impact_count (Py.lower text) = size (Spec.phrases_present text).
Proof.
  unfold Spec.phrases_present, Disease.impact_count.
  symmetry. apply size_list_to_set, NoDup_filter, impact_phrases_NoDup.
Qed.

Lemma score_closed_form (text : string) (c : Z) :
  (0 <= c < Py.float_overflow_bound)%Z ->
  Disease._calculate_impact_score (Py.PyStr text) (Py.PyInt c) =
  Py.SFin (ln (1 + IZR c) / 10 + INR (Disease.impact_count (Py.lower text)) / 8).
Proof.
  intros [H0 Hb].
  unfold Disease._calculate_impact_score, Disease.impact_score_body,
    Disease.citation_score.
  rewrite float_small_int by lia. cbn [Py.bind Disease.lower_method].
  rewrite log1p_nonneg_int by assumption.
  cbn [Py.div10 Py.add].
  change (length Disease.impact_phrases) with 8. rewrite INR_8. reflexivity.
Qed.

(** ** Impact score and citation term *)

Lemma phrase_term_bounds (text : string) :
  (0 <= INR (size (Spec.phrases_present text)) / 8 <= 1)%R.
Proof.
  rewrite <- impact_count_present.
  pose proof (impact_count_le (Py.lower text)) as Hle.
  apply le_INR in Hle. rewrite INR_8 in Hle.
  pose proof (pos_INR (Disease.impact_count (Py.lower text))).
  split; lra.
Qed.

(** Claim C1, as amended.  For a text and a coerced citation count
    [c >= 0], the impact score is [log(1 + c) / 10] plus the number of
    impact phrases that occur at least once in the lowercased text, divided
    by the size 8 of the vocabulary.  A phrase counts once however often it
    occurs, so the second term lies between 0 and 1. *)
Theorem impact_score_counts_distinct_phrases (text : string) (c : Z) :
  (0 <= c < Py.float_overflow_bound)%Z ->
  Disease._calculate_impact_score (Py.PyStr text) (Py.PyInt c) =
    Py.SFin (ln (1 + IZR c) / 10
             + INR (size (Spec.phrases_present text)) / 8)%R
  /\ (0 <= INR (size (Spec.phrases_present text)) / 8 <= 1)%R.
Proof.
  intros Hc. split.
  - rewrite score_closed_form by assumption.
    now rewrite impact_count_present.
  - apply phrase_term_bounds.
Qed.

Lemma impact_score_counts_distinct_phrases_witness :
  (0 <= 12 < Py.float_overflow_bound)%Z /\
  Disease._calculate_impact_score
    (Py.PyStr "A novel, novel and important result") (Py.PyInt 12) =
    Py.SFin (ln (1 + IZR 12) / 10
             + INR (size (Spec.phrases_present
                            "A novel, novel and important result")) / 8)%R.
Proof.
  split.
  - vm_compute. split; [discriminate | reflexivity].
  - apply (impact_score_counts_distinct_phrases
             "A novel, novel and important result" 12).
    vm_compute. split; [discriminate | reflexivity].
Defined.

(** Claim C1 as stated fails: in "novel novel" the phrase occurs twice, the
    specification's formula gives [2 / 8] for the second term and the code
    gives [1 / 8]. *)
Lemma impact_score_ignores_repeats :
  Spec.phrase_occurrences "novel novel" = 2 /\
  Disease._calculate_impact_score (Py.PyStr "novel novel") (Py.PyInt 0) =
    Py.SFin (ln (1 + 0) / 10 + 1 / 8)%R /\
  Disease._calculate_impact_score (Py.PyStr "novel novel") (Py.PyInt 0) <>
    Spec.impact_score "novel novel" 0.
Proof.
  assert (Disease.impact_count (Py.lower "novel novel") = 1) as Hcode
    by (vm_compute; reflexivity).
  assert (Spec.phrase_occurrences "novel novel" = 2) as Hspec
    by (vm_compute; reflexivity).
  assert (0 <= 0 < Py.float_overflow_bound)%Z as Hc
    by (vm_compute; split; [discriminate | reflexivity]).
  split; [exact Hspec|].
  rewrite (score_closed_form _ _ Hc), Hcode.
  unfold Spec.impact_score. rewrite Hspec.
  split.
  - simpl INR. reflexivity.
  - intros H. injection H as H. simpl INR in H. lra.
Qed.






(** ** The batch of publications *)

Lemma scoring_exception_gives_zero (text citations : Py.pyval) (e : Py.exn) :
  Disease.impact_score_body text citations = Py.Raise e ->
  Disease._calculate_impact_score text citations = Py.SFin 0.
Proof. intros H. unfold Disease._calculate_impact_score. now rewrite H. Qed.

Lemma process_publications_cons_ok (nlp : string -> list string)
    (pub : Pub.publication) (rest : list Pub.publication) (c : Z)
    (acc : gmap string (list Disease.contribution)) :
  Disease.coerce_citations pub = Py.Ok c ->
  Disease.process_publications nlp (pub :: rest) acc =
  Disease.process_publications nlp rest
    (Disease.check_categories nlp pub (Pub.text pub) c
       Disease.disease_categories acc).
Proof.
  intros H. cbn [Disease.process_publications].
  unfold Disease.process_publication. now rewrite H.
Qed.

Lemma process_publications_cons_raise (nlp : string -> list string)
    (pub : Pub.publication) (rest : list Pub.publication) (e : Py.exn)
    (acc : gmap string (list Disease.contribution)) :
  Disease.coerce_citations pub = Py.Raise e ->
  Disease.process_publications nlp (pub :: rest) acc = Py.Raise e.
Proof.
  intros H. cbn [Disease.process_publications].
  unfold Disease.process_publication. now rewrite H.
Qed.

Lemma process_publications_aborts (nlp : string -> list string)
    (before after : list Pub.publication) (pub : Pub.publication)
    (e : Py.exn) (acc : gmap string (list Disease.contribution)) :
  Forall (fun p => exists c, Disease.coerce_citations p = Py.Ok c) before ->
  Disease.coerce_citations pub = Py.Raise e ->
  Disease.process_publications nlp (before ++ pub :: after) acc = Py.Raise e.
Proof.
  intros Hb He. revert acc.
  induction Hb as [|p before [c Hc] _ IH]; intros acc.
  - now apply process_publications_cons_raise.
  - cbn [app]. rewrite (process_publications_cons_ok _ _ _ c) by assumption.
    apply IH.
Qed.

(** Claim C9 at a batch whose second record has the citation count "inf":
    [int(float('inf'))] raises [OverflowError], which
    [except (TypeError, ValueError)] does not catch, and the whole analysis
    stops with that exception, whatever the segmenter and although the
    records before and after it are well formed. *)
Theorem infinite_citation_count_aborts_batch (nlp : string -> list string) :
  Disease.coerce_citations (Sample.diabetes_paper (Some (Py.PyStr "inf")))
    = Py.Raise Py.OverflowError /\
  Disease.analyze_disease_contributions nlp Sample.batch_with_inf
    = Py.Raise Py.OverflowError.
Proof.
  assert (Disease.coerce_citations
            (Sample.diabetes_paper (Some (Py.PyStr "inf")))
          = Py.Raise Py.OverflowError) as He by (vm_compute; reflexivity).
  split; [exact He|].
  unfold Disease.analyze_disease_contributions, Sample.batch_with_inf.
  assert (Forall (fun p => exists c, Disease.coerce_citations p = Py.Ok c)
            [Sample.diabetes_paper (Some (Py.PyStr "12"))]) as Hb.
  { constructor; [|constructor]. exists 12%Z. vm_compute; reflexivity. }
  pose proof (process_publications_aborts nlp _
                [Sample.diabetes_paper None] _ _ ∅ Hb He) as Ha.
  cbn [app] in Ha. now rewrite Ha.
Qed.













(** ** Field usage *)

Section FieldUsage.
Variable nlp : option (string -> list string).
Variable field_mappings : gmap string Integrated.metadata.

Lemma record_mention_lookup_ne (pub : Pub.publication)
    (text g f : string) (fu : gmap string Integrated.usage) :
  g <> f ->
  Integrated.record_mention nlp pub text g fu !! f = fu !! f.
Proof. intros Hne. unfold Integrated.record_mention. by rewrite lookup_insert_ne. Qed.

Lemma record_mention_lookup_eq (pub : Pub.publication)
    (text f : string) (fu : gmap string Integrated.usage) :
  Integrated.record_mention nlp pub text f fu !! f =
  Some {| Integrated.mentions := Integrated.mentions (Spec.usage_of fu f) + 1;
          Integrated.papers :=
            Integrated.papers (Spec.usage_of fu f)
            ∪ {[Pub.get (Pub.title pub)]};
          Integrated.contexts :=
            (Integrated.contexts (Spec.usage_of fu f)
             ++ Integrated._get_field_context nlp text f)%list;
          Integrated.years :=
            Integrated.years (Spec.usage_of fu f)
            ∪ {[Pub.get (Pub.year pub)]} |}.
Proof.
  unfold Integrated.record_mention. rewrite lookup_insert_eq.
  unfold Spec.usage_of. destruct nlp; [reflexivity|].
  cbn. now rewrite app_nil_r.
Qed.

Lemma record_mentions_unconfirmed (pub : Pub.publication)
    (text f : string) (found : list string)
    (fu : gmap string Integrated.usage) :
  field_mappings !! f = None ->
  Integrated.record_mentions nlp field_mappings pub text found fu !! f
  = fu !! f.
Proof.
  intros Hf. revert fu. unfold Integrated.record_mentions.
  induction found as [|g found IH]; intros fu; [reflexivity|].
  cbn [foldl]. rewrite IH.
  destruct (decide (is_Some (field_mappings !! g))) as [Hg|]; [|reflexivity].
  apply record_mention_lookup_ne. intros ->.
  rewrite Hf in Hg. by destruct Hg.
Qed.

(** Claim C7.  A field id that is not a key of the field mappings has no
    usage record after the analysis, whatever the publications contain. *)
Theorem unconfirmed_field_has_no_usage_record
    (publications : list Pub.publication) (f : string) :
  field_mappings !! f = None ->
  Integrated._analyze_field_usage nlp field_mappings publications !! f = None.
Proof.
  intros Hf. unfold Integrated._analyze_field_usage.
  assert (forall fu, fu !! f = None ->
            foldl (Integrated.analyze_publication nlp field_mappings) fu
              publications !! f = None) as H.
  { induction publications as [|pub pubs IH]; intros fu Hfu; [exact Hfu|].
    cbn [foldl]. apply IH. unfold Integrated.analyze_publication.
    now rewrite record_mentions_unconfirmed. }
  apply H, lookup_empty.
Qed.

Lemma size_add_one (X : gset (option string)) (x : option string) :
  size (X ∪ {[x]}) <= size X + 1.
Proof.
  rewrite size_union_alt.
  apply Nat.add_le_mono_l.
  rewrite <- (size_singleton (C:=gset (option string)) x).
  apply subseteq_size. intros y Hy. by apply elem_of_difference in Hy as [? _].
Qed.

Lemma usage_of_counted (fu : gmap string Integrated.usage) (f : string) :
  Spec.counted fu ->
  size (Integrated.papers (Spec.usage_of fu f))
  <= Integrated.mentions (Spec.usage_of fu f).
Proof.
  intros H. unfold Spec.usage_of.
  destruct (fu !! f) as [u|] eqn:E; cbn.
  - by apply (H f).
  - by rewrite size_empty.
Qed.

Lemma record_mention_counted (pub : Pub.publication) (text g : string)
    (fu : gmap string Integrated.usage) :
  Spec.counted fu -> Spec.counted (Integrated.record_mention nlp pub text g fu).
Proof.
  intros H f u. destruct (decide (g = f)) as [->|Hne].
  - rewrite record_mention_lookup_eq. intros [= <-]. cbn.
    pose proof (usage_of_counted fu f H).
    pose proof (size_add_one (Integrated.papers (Spec.usage_of fu f))
                             (Pub.get (Pub.title pub))).
    lia.
  - rewrite record_mention_lookup_ne by assumption. apply H.
Qed.

Lemma record_mentions_counted (pub : Pub.publication) (text : string)
    (found : list string) (fu : gmap string Integrated.usage) :
  Spec.counted fu ->
  Spec.counted (Integrated.record_mentions nlp field_mappings pub text found fu).
Proof.
  revert fu. unfold Integrated.record_mentions.
  induction found as [|g found IH]; intros fu H; [exact H|].
  cbn [foldl]. apply IH.
  destruct (decide _); [by apply record_mention_counted | exact H].
Qed.

(** Claim C6.  Every usage record counts at least as many mentions as its
    paper set has elements. *)
Theorem mentions_at_least_papers (publications : list Pub.publication)
    (f : string) (u : Integrated.usage) :
  Integrated._analyze_field_usage nlp field_mappings publications !! f
    = Some u ->
  size (Integrated.papers u) <= Integrated.mentions u.
Proof.
  assert (forall fu, Spec.counted fu ->
            Spec.counted (foldl (Integrated.analyze_publication nlp field_mappings)
                       fu publications)) as H.
  { induction publications as [|pub pubs IH]; intros fu Hfu; [exact Hfu|].
    cbn [foldl]. apply IH. by apply record_mentions_counted. }
  apply (H ∅). intros g v. by rewrite lookup_empty.
Qed.

End FieldUsage.

Lemma unconfirmed_field_has_no_usage_record_witness :
  "12-3.4" ∈ Integrated.findall_field_pattern (Pub.text Sample.ratio_paper) /\
  Sample.lifestyle_mappings !! "12-3.4" = None /\
  Integrated._analyze_field_usage (Some Sample.whole_text)
    Sample.lifestyle_mappings [Sample.ratio_paper] !! "12-3.4" = None.
Proof.
  split; [vm_compute; apply list_elem_of_here|].
  assert (Sample.lifestyle_mappings !! "12-3.4" = None) as H
    by (vm_compute; reflexivity).
  split; [exact H|].
  exact (unconfirmed_field_has_no_usage_record (Some Sample.whole_text)
           Sample.lifestyle_mappings [Sample.ratio_paper] "12-3.4" H).
Defined.

Lemma mentions_at_least_papers_witness :
  exists u,
    Integrated._analyze_field_usage (Some Sample.whole_text)
      Sample.lifestyle_mappings [Sample.energy_paper; Sample.repeated_paper]
      !! "100-0.0" = Some u /\
    Integrated.mentions u = 7 /\
    size (Integrated.papers u) = 2 /\
    size (Integrated.papers u) <= Integrated.mentions u.
Proof.
  destruct (Integrated._analyze_field_usage (Some Sample.whole_text)
      Sample.lifestyle_mappings [Sample.energy_paper; Sample.repeated_paper]
      !! "100-0.0") as [u|] eqn:E.
  - exists u. split; [reflexivity|].
    assert (Integrated.mentions <$> Some u = Some 7) as Hm
      by (rewrite <- E; vm_compute; reflexivity).
    assert ((fun v => size (Integrated.papers v)) <$> Some u = Some 2) as Hp
      by (rewrite <- E; vm_compute; reflexivity).
    injection Hm as Hm. injection Hp as Hp.
    split; [exact Hm|]. split; [exact Hp|].
    exact (mentions_at_least_papers (Some Sample.whole_text)
             Sample.lifestyle_mappings _ "100-0.0" u E).
  - exfalso.
    assert (is_Some (Integrated._analyze_field_usage (Some Sample.whole_text)
      Sample.lifestyle_mappings [Sample.energy_paper; Sample.repeated_paper]
      !! "100-0.0")) as [v Hv] by (vm_compute; eexists; reflexivity).
    congruence.
Defined.

Section Aggregates.
Variable nlp : option (string -> list string).
Variable field_mappings : gmap string Integrated.metadata.

Lemma usage_of_record_mention_eq (pub : Pub.publication)
    (text f : string) (fu : gmap string Integrated.usage) :
  Integrated.papers
    (Spec.usage_of (Integrated.record_mention nlp pub text f fu) f)
  = Integrated.papers (Spec.usage_of fu f) ∪ {[Pub.get (Pub.title pub)]}
  /\
  Integrated.contexts
    (Spec.usage_of (Integrated.record_mention nlp pub text f fu) f)
  = (Integrated.contexts (Spec.usage_of fu f)
     ++ Integrated._get_field_context nlp text f)%list.
Proof.
  unfold Spec.usage_of at 1 3.
  rewrite record_mention_lookup_eq. split; reflexivity.
Qed.

Lemma usage_of_record_mention_ne (pub : Pub.publication)
    (text g f : string) (fu : gmap string Integrated.usage) :
  g <> f ->
  Spec.usage_of (Integrated.record_mention nlp pub text g fu) f
  = Spec.usage_of fu f.
Proof.
  intros Hne. unfold Spec.usage_of.
  by rewrite record_mention_lookup_ne.
Qed.

Lemma record_mentions_aggregates (pub : Pub.publication) (text f : string)
    (found : list string) (fu : gmap string Integrated.usage) :
  is_Some (field_mappings !! f) ->
  let fu' :=
    Integrated.record_mentions nlp field_mappings pub text found fu in
  Integrated.papers (Spec.usage_of fu' f)
  = Integrated.papers (Spec.usage_of fu f)
    ∪ (if decide (f ∈ found) then {[Pub.get (Pub.title pub)]} else ∅)
  /\
  Integrated.contexts (Spec.usage_of fu' f)
  = (Integrated.contexts (Spec.usage_of fu f)
     ++ flat_map (fun _ => Integrated._get_field_context nlp text f)
          (filter (fun g => g = f) found))%list.
Proof.
  intros Hf. cbv zeta. revert fu. unfold Integrated.record_mentions.
  induction found as [|g found IH]; intros fu.
  - cbn. rewrite app_nil_r. split; [|reflexivity].
    rewrite decide_False by apply not_elem_of_nil. set_solver.
  - cbn [foldl]. destruct (IH (if decide (is_Some (field_mappings !! g))
               then Integrated.record_mention nlp pub text g fu else fu))
      as [IHp IHc].
    rewrite IHp, IHc. clear IHp IHc IH.
    rewrite filter_cons.
    destruct (decide (g = f)) as [->|Hne].
    + rewrite (decide_True (P:=is_Some _)) by assumption.
      destruct (usage_of_record_mention_eq pub text f fu) as [-> ->].
      split.
      * rewrite (decide_True (P:=f ∈ f :: found)) by apply list_elem_of_here.
        destruct (decide (f ∈ found)); set_solver.
      * cbn [flat_map]. now rewrite app_assoc.
    + assert (Spec.usage_of
                (if decide (is_Some (field_mappings !! g))
                 then Integrated.record_mention nlp pub text g fu else fu) f
              = Spec.usage_of fu f) as ->.
      { destruct (decide _); [|reflexivity].
        by apply usage_of_record_mention_ne. }
      split; [|reflexivity].
      destruct (decide (f ∈ found)) as [Hin|Hnin].
      * rewrite decide_True by (by apply list_elem_of_further). reflexivity.
      * rewrite decide_False; [reflexivity|].
        intros [?|?]%elem_of_cons; congruence.
Qed.

Lemma paper_titles_cons (f : string) (pub : Pub.publication)
    (pubs : list Pub.publication) :
  Spec.paper_titles f (pub :: pubs) =
  (if decide (Spec.mentions_field f pub)
   then {[Pub.get (Pub.title pub)]} else ∅) ∪ Spec.paper_titles f pubs.
Proof.
  unfold Spec.paper_titles. rewrite filter_cons.
  destruct (decide (Spec.mentions_field f pub)).
  - reflexivity.
  - by rewrite (left_id_L ∅ (∪)).
Qed.

Lemma analyze_aggregates (f : string) (publications : list Pub.publication)
    (fu : gmap string Integrated.usage) :
  is_Some (field_mappings !! f) ->
  let fu' :=
    foldl (Integrated.analyze_publication nlp field_mappings) fu
      publications in
  Integrated.papers (Spec.usage_of fu' f)
  = Integrated.papers (Spec.usage_of fu f) ∪ Spec.paper_titles f publications
  /\
  Integrated.contexts (Spec.usage_of fu' f)
  = (Integrated.contexts (Spec.usage_of fu f)
     ++ flat_map (Spec.contexts_of_publication nlp f) publications)%list.
Proof.
  intros Hf. cbv zeta. revert fu.
  induction publications as [|pub pubs IH]; intros fu.
  - cbn. rewrite app_nil_r. split; [|reflexivity].
    unfold Spec.paper_titles. cbn. by rewrite (right_id_L ∅ (∪)).
  - cbn [foldl flat_map].
    destruct (IH (Integrated.analyze_publication nlp field_mappings fu pub))
      as [-> ->].
    unfold Integrated.analyze_publication.
    destruct (record_mentions_aggregates pub (Pub.text pub) f
                (Integrated.findall_field_pattern (Pub.text pub)) fu Hf)
      as [-> ->].
    rewrite paper_titles_cons. unfold Spec.mentions_field.
    split.
    + by rewrite (assoc_L (∪)).
    + unfold Spec.contexts_of_publication at 2. now rewrite app_assoc.
Qed.

Lemma usage_papers (publications : list Pub.publication) (f : string) :
  is_Some (field_mappings !! f) ->
  Integrated.papers
    (Spec.usage_of
       (Integrated._analyze_field_usage nlp field_mappings publications) f)
  = Spec.paper_titles f publications.
Proof.
  intros Hf. unfold Integrated._analyze_field_usage.
  destruct (analyze_aggregates f publications ∅ Hf) as [-> _].
  unfold Spec.usage_of. rewrite lookup_empty. cbn.
  by rewrite (left_id_L ∅ (∪)).
Qed.

Lemma usage_contexts (publications : list Pub.publication) (f : string) :
  is_Some (field_mappings !! f) ->
  Integrated.contexts
    (Spec.usage_of
       (Integrated._analyze_field_usage nlp field_mappings publications) f)
  = flat_map (Spec.contexts_of_publication nlp f) publications.
Proof.
  intros Hf. unfold Integrated._analyze_field_usage.
  destruct (analyze_aggregates f publications ∅ Hf) as [_ ->].
  unfold Spec.usage_of. rewrite lookup_empty. reflexivity.
Qed.

(** Claim C4, as amended.  For a field of the taxonomy, the paper set of
    its usage record is the set of the titles ([pub.get('title')]) of the
    publications that mention it: a title is in the set once, however many
    mentions, and however many publications, carry it. *)
Theorem papers_are_titles_of_mentioning_publications
    (publications : list Pub.publication) (f : string) :
  is_Some (field_mappings !! f) ->
  Integrated.papers
    (Spec.usage_of
       (Integrated._analyze_field_usage nlp field_mappings publications) f)
  = Spec.paper_titles f publications.
Proof. apply usage_papers. Qed.

(** Claim C2, as amended.  For a field of the taxonomy, the context list of
    its usage record is, in discovery order, the concatenation over the
    publications and over each mention of the field of the sentences that
    contain the field id (no sentence when the segmenter is missing);
    nothing removes repeated sentences or bounds the length. *)
Theorem contexts_are_all_mention_sentences
    (publications : list Pub.publication) (f : string) :
  is_Some (field_mappings !! f) ->
  Integrated.contexts
    (Spec.usage_of
       (Integrated._analyze_field_usage nlp field_mappings publications) f)
  = flat_map (Spec.contexts_of_publication nlp f) publications.
Proof. apply usage_contexts. Qed.

End Aggregates.

Lemma filter_all {A : Type} (P : A -> Prop) `{!forall x, Decision (P x)}
    (l : list A) :
  Forall P l -> filter P l = l.
Proof.
  induction 1 as [|x l Hx _ IH]; [reflexivity|].
  rewrite filter_cons, decide_True by assumption. now rewrite IH.
Qed.

Lemma lifestyle_has_energy_field :
  is_Some (Sample.lifestyle_mappings !! "100-0.0").
Proof. vm_compute. eexists. reflexivity. Qed.

Lemma papers_are_titles_of_mentioning_publications_witness :
  is_Some (Sample.lifestyle_mappings !! "100-0.0") /\
  Integrated.papers
    (Spec.usage_of
       (Integrated._analyze_field_usage (Some Sample.whole_text)
          Sample.lifestyle_mappings Sample.twin_papers) "100-0.0")
  = Spec.paper_titles "100-0.0" Sample.twin_papers.
Proof.
  assert (is_Some (Sample.lifestyle_mappings !! "100-0.0")) as H
    by (vm_compute; eexists; reflexivity).
  split; [exact H|].
  exact (papers_are_titles_of_mentioning_publications (Some Sample.whole_text)
           Sample.lifestyle_mappings Sample.twin_papers "100-0.0" H).
Defined.

(** Claim C4 as stated fails: two publications with the ids "p1" and "p2"
    and the same title both mention the field; the paper set holds their
    title, once, and is not the set of their ids. *)
Lemma papers_hold_titles_not_ids :
  Forall (Spec.mentions_field "100-0.0") Sample.twin_papers /\
  NoDup ((fun pub => Pub.get (Pub.publication_id pub)) <$> Sample.twin_papers) /\
  Integrated.papers
    (Spec.usage_of
       (Integrated._analyze_field_usage (Some Sample.whole_text)
          Sample.lifestyle_mappings Sample.twin_papers) "100-0.0")
  = {[Some "Diet survey"]} /\
  Integrated.papers
    (Spec.usage_of
       (Integrated._analyze_field_usage (Some Sample.whole_text)
          Sample.lifestyle_mappings Sample.twin_papers) "100-0.0")
  <> Spec.paper_ids "100-0.0" Sample.twin_papers.
Proof.
  assert (Forall (Spec.mentions_field "100-0.0") Sample.twin_papers) as Hm.
  { repeat constructor. }
  split; [exact Hm|].
  split.
  { apply (bool_decide_unpack (NoDup _)). vm_compute. exact I. }
  rewrite usage_papers by apply lifestyle_has_energy_field.
  assert (Spec.paper_titles "100-0.0" Sample.twin_papers
          = {[Some "Diet survey"]}) as ->.
  { unfold Spec.paper_titles. rewrite (filter_all _ _ Hm).
    cbn. set_solver. }
  split; [reflexivity|].
  unfold Spec.paper_ids. rewrite (filter_all _ _ Hm).
  cbn. intros H.
  assert (Some "p1" ∈ ({[Some "Diet survey"]} : gset (option string))) as Hin
    by (rewrite H; set_solver).
  apply elem_of_singleton in Hin. discriminate.
Qed.

Lemma contexts_are_all_mention_sentences_witness :
  is_Some (Sample.lifestyle_mappings !! "100-0.0") /\
  Integrated.contexts
    (Spec.usage_of
       (Integrated._analyze_field_usage (Some Sample.whole_text)
          Sample.lifestyle_mappings [Sample.energy_paper]) "100-0.0")
  = flat_map (Spec.contexts_of_publication (Some Sample.whole_text) "100-0.0")
      [Sample.energy_paper].
Proof.
  assert (is_Some (Sample.lifestyle_mappings !! "100-0.0")) as H
    by (vm_compute; eexists; reflexivity).
  split; [exact H|].
  exact (contexts_are_all_mention_sentences (Some Sample.whole_text)
           Sample.lifestyle_mappings [Sample.energy_paper] "100-0.0" H).
Defined.

(** Claim C2 as stated fails: one publication whose only sentence names
    the field six times leaves six copies of that sentence in the
    contexts. *)
Lemma contexts_repeat_and_exceed_five :
  Integrated.contexts
    (Spec.usage_of
       (Integrated._analyze_field_usage (Some Sample.whole_text)
          Sample.lifestyle_mappings [Sample.repeated_paper]) "100-0.0")
  = replicate 6 (Py.strip (Pub.text Sample.repeated_paper)) /\
  ~ NoDup
      (Integrated.contexts
         (Spec.usage_of
            (Integrated._analyze_field_usage (Some Sample.whole_text)
               Sample.lifestyle_mappings [Sample.repeated_paper]) "100-0.0")) /\
  5 < length
        (Integrated.contexts
           (Spec.usage_of
              (Integrated._analyze_field_usage (Some Sample.whole_text)
                 Sample.lifestyle_mappings [Sample.repeated_paper]) "100-0.0")).
Proof.
  assert (Integrated.contexts
    (Spec.usage_of
       (Integrated._analyze_field_usage (Some Sample.whole_text)
          Sample.lifestyle_mappings [Sample.repeated_paper]) "100-0.0")
  = replicate 6 (Py.strip (Pub.text Sample.repeated_paper))) as E
    by (vm_compute; reflexivity).
  split; [exact E|]. rewrite E. split.
  - cbn [replicate]. intros H. apply NoDup_cons in H as [H _].
    apply H, list_elem_of_here.
  - rewrite length_replicate. lia.
Qed.

(** No bound holds: [n + 1] publications leave more than [n] contexts. *)
Lemma contexts_unbounded (n : nat) :
  n < length
        (Integrated.contexts
           (Spec.usage_of
              (Integrated._analyze_field_usage (Some Sample.whole_text)
                 Sample.lifestyle_mappings
                 (replicate (S n) Sample.energy_paper)) "100-0.0")).
Proof.
  rewrite usage_contexts by apply lifestyle_has_energy_field.
  assert (forall k,
            length (flat_map
                      (Spec.contexts_of_publication (Some Sample.whole_text)
                         "100-0.0")
                      (replicate k Sample.energy_paper)) = k) as H.
  { induction k as [|k IH]; [reflexivity|].
    cbn [replicate flat_map]. rewrite length_app, IH.
    assert (length (Spec.contexts_of_publication (Some Sample.whole_text)
                      "100-0.0" Sample.energy_paper) = 1) as ->
      by (vm_compute; reflexivity).
    reflexivity. }
  rewrite H. lia.
Qed.

Lemma cover_field_bounded (fu : gmap string Integrated.usage)
    (field_id : string) (meta : Integrated.metadata)
    (cc : gmap string Integrated.coverage) :
  Spec.bounded cc -> Spec.bounded (Integrated.cover_field fu field_id meta cc).
Proof.
  intros H cat c. unfold Integrated.cover_field.
  destruct (decide (Integrated.m_category meta = cat)) as [<-|Hne].
  - rewrite lookup_insert_eq. intros [= <-].
    assert (Integrated.used_fields
              (default Integrated.new_coverage
                 (cc !! Integrated.m_category meta))
            <= Integrated.total_fields
                 (default Integrated.new_coverage
                    (cc !! Integrated.m_category meta))) as Hle.
    { destruct (cc !! Integrated.m_category meta) as [c0|] eqn:E; cbn.
      - by destruct (H _ _ E).
      - reflexivity. }
    set (c0 := default Integrated.new_coverage
                 (cc !! Integrated.m_category meta)) in *.
    clearbody c0.
    destruct (fu !! field_id);
      cbn [Integrated.used_fields Integrated.total_fields]; lia.
  - rewrite lookup_insert_ne by assumption. apply H.
Qed.

Lemma analyze_category_coverage_bounded
    (field_mappings : gmap string Integrated.metadata)
    (fu : gmap string Integrated.usage) :
  Spec.bounded (Integrated.analyze_category_coverage field_mappings fu).
Proof.
  unfold Integrated.analyze_category_coverage.
  apply (map_fold_weak_ind (fun r _ => Spec.bounded r)).
  - intros cat c. by rewrite lookup_empty.
  - intros i x m r _ Hr. by apply cover_field_bounded.
Qed.

Lemma usage_percentage_zero (data : Integrated.coverage) :
  Integrated.total_fields data = 0 ->
  Integrated.usage_percentage data = 0%Q.
Proof. intros H. unfold Integrated.usage_percentage. now rewrite H. Qed.

Lemma usage_percentage_range (data : Integrated.coverage) :
  Integrated.used_fields data <= Integrated.total_fields data ->
  0 < Integrated.total_fields data ->
  (0 <= Integrated.usage_percentage data <= 100)%Q.
Proof.
  intros Hle Hpos. unfold Integrated.usage_percentage.
  destruct (Nat.ltb_spec 0 (Integrated.total_fields data)) as [_|]; [|lia].
  set (u := inject_Z (Z.of_nat (Integrated.used_fields data))).
  set (t := inject_Z (Z.of_nat (Integrated.total_fields data))).
  assert (0 <= u)%Q as Hu.
  { unfold u, Qle. simpl. lia. }
  assert (u <= t)%Q as Hut.
  { unfold u, t. rewrite <- Zle_Qle. lia. }
  assert (0 < t)%Q as Ht.
  { unfold t, Qlt. simpl. lia. }
  assert (0 <= u / t)%Q as H0.
  { apply Qle_shift_div_l; [exact Ht|]. now rewrite Qmult_0_l. }
  assert (u / t <= 1)%Q as H1.
  { apply Qle_shift_div_r; [exact Ht|]. now rewrite Qmult_1_l. }
  clearbody u t. set (r := (u / t)%Q) in *. clearbody r.
  split; lra.
Qed.

(** Claim C8.  For every category of the coverage statistics the usage
    percentage is [used_fields / total_fields * 100] and lies between 0 and
    100 when the category has fields, and is 0 when it has none; the
    function is total, so the division cannot fault. *)
Theorem usage_percentage_within_bounds
    (field_mappings : gmap string Integrated.metadata)
    (field_usage : gmap string Integrated.usage)
    (category : string) (data : Integrated.coverage) :
  Integrated.analyze_category_coverage field_mappings field_usage !! category
    = Some data ->
  (0 < Integrated.total_fields data ->
     (Integrated.usage_percentage data
        == inject_Z (Z.of_nat (Integrated.used_fields data))
           / inject_Z (Z.of_nat (Integrated.total_fields data)) * 100)%Q
     /\ (0 <= Integrated.usage_percentage data <= 100)%Q)
  /\ (Integrated.total_fields data = 0 ->
      Integrated.usage_percentage data = 0%Q).
Proof.
  intros H.
  destruct (analyze_category_coverage_bounded _ _ _ _ H) as [Hle Hpos].
  split.
  - intros Ht. split.
    + unfold Integrated.usage_percentage.
      destruct (Nat.ltb_spec 0 (Integrated.total_fields data)); [|lia].
      reflexivity.
    + by apply usage_percentage_range.
  - apply usage_percentage_zero.
Qed.

Lemma usage_percentage_within_bounds_witness :
  exists data,
    Integrated.analyze_category_coverage Sample.lifestyle_mappings
      (Integrated._analyze_field_usage (Some Sample.whole_text)
         Sample.lifestyle_mappings [Sample.energy_paper]) !! "Lifestyle"
    = Some data /\
    Integrated.total_fields data = 1 /\
    (0 <= Integrated.usage_percentage data <= 100)%Q.
Proof.
  destruct (Integrated.analyze_category_coverage Sample.lifestyle_mappings
      (Integrated._analyze_field_usage (Some Sample.whole_text)
         Sample.lifestyle_mappings [Sample.energy_paper]) !! "Lifestyle")
    as [data|] eqn:E.
  - exists data. split; [reflexivity|].
    assert (Integrated.total_fields <$> Some data = Some 1) as Ht
      by (rewrite <- E; vm_compute; reflexivity).
    injection Ht as Ht. split; [exact Ht|].
    apply (usage_percentage_within_bounds Sample.lifestyle_mappings
             (Integrated._analyze_field_usage (Some Sample.whole_text)
                Sample.lifestyle_mappings [Sample.energy_paper])
             "Lifestyle" data E).
    rewrite Ht. lia.
  - exfalso.
    assert (is_Some (Integrated.analyze_category_coverage
      Sample.lifestyle_mappings
      (Integrated._analyze_field_usage (Some Sample.whole_text)
         Sample.lifestyle_mappings [Sample.energy_paper]) !! "Lifestyle"))
      as [v Hv] by (vm_compute; eexists; reflexivity).
    congruence.
Defined.

(** ** Taxonomy *)

Section Dict.
Context {V : Type} (dflt : V) (f : V -> V).





End Dict.

Lemma lookup_key_None {V : Type} (k : string) (d : list (string * V)) :
  k ∉ d.*1 -> Spec.lookup_key k d = None.
Proof.
  induction d as [|[k' v] d IH]; [reflexivity|]. cbn.
  intros [Hne Hnin]%not_elem_of_cons.
  destruct (String.eqb_spec k k'); [congruence | by apply IH].
Qed.

(** Pass 1 and pass 2 keep the keys of every dict distinct. *)





Section Placement.
Variable cat_id : string.
Variable info : Showcase.field_info.









End Placement.












